(** * Optimization triangle widget (src/cpp-wasm/optimization_triangle.cpp)

    Shallow embedding of the triangle geometry and of the exported
    pointer-event interface.  A C++ [double] is modelled by an exact
    rational [Q]: the development is about the arithmetic the code
    performs, not about rounding.  Every division the code performs goes
    through [qdiv], which fails (returns [None]) on a zero divisor, so the
    functions that divide live in the [option] monad; a result [Some _]
    means that no division by zero happened along the way.  Module
    [Binary64] embeds the geometry a second time with the IEEE binary64
    operations of the source, for the properties that rounding decides. *)

From Stdlib Require Import ZArith QArith Qabs Lqa Lia List.
From Stdlib Require Import Reals Qreals.
From Stdlib Require Lra.
From Stdlib Require Import PrimFloat.

Set Warnings "-inexact-float".
Open Scope Q_scope.
Import ListNotations.

(** ** Checked arithmetic *)

(** Strict comparison on [Q] as a boolean ([double] [<]). *)
Definition Qltb (a b : Q) : bool := negb (Qle_bool b a).

(** [std::min(a, b)] returns [(b < a) ? b : a]. *)
Definition std_min (a b : Q) : Q := if Qltb b a then b else a.

(** [std::max(a, b)] returns [(a < b) ? b : a]. *)
Definition std_max (a b : Q) : Q := if Qltb a b then b else a.

(** Division that fails on a zero divisor. *)
Definition qdiv (a b : Q) : option Q :=
  if Qeq_bool b 0 then None else Some (a / b).

Notation "'let*' x := m 'in' k" :=
  (match m with Some x => k | None => None end)
  (at level 200, x name, m at level 100, k at level 200).

(** ** Data model *)

Record Point2D := mkPoint { px : Q; py : Q }.

Record BarycentricCoord := mkBary {
  performance : Q;
  velocity : Q;
  adaptability : Q
}.

(** Default constructor of [BarycentricCoord]: (0.33, 0.33, 0.34). *)
Definition BarycentricCoord_default : BarycentricCoord :=
  mkBary (33 # 100) (33 # 100) (34 # 100).

Record Triangle := mkTriangle { top : Point2D; left : Point2D; right : Point2D }.

(** [Triangle(int canvasWidth, int canvasHeight)]: [padding] is an [int],
    [canvasWidth / 2.0] is a [double] division, the other coordinates are
    [int] differences converted to [double]. *)
Definition Triangle_make (canvasWidth canvasHeight : Z) : Triangle :=
  let padding := 80%Z in
  {| top := mkPoint (inject_Z canvasWidth / 2) (inject_Z padding);
     left := mkPoint (inject_Z padding) (inject_Z (canvasHeight - padding));
     right := mkPoint (inject_Z (canvasWidth - padding))
                      (inject_Z (canvasHeight - padding)) |}.

Section Geometry.

Variable tri : Triangle.

Definition baryToCartesian (bc : BarycentricCoord) : Point2D :=
  mkPoint
    (performance bc * px (top tri) + velocity bc * px (left tri)
       + adaptability bc * px (right tri))
    (performance bc * py (top tri) + velocity bc * py (left tri)
       + adaptability bc * py (right tri)).

Definition signedArea (p1 p2 p3 : Point2D) : Q :=
  (px p1 - px p3) * (py p2 - py p3) - (px p2 - px p3) * (py p1 - py p3).

Definition isInside (point : Point2D) : bool :=
  let d1 := signedArea point (top tri) (left tri) in
  let d2 := signedArea point (left tri) (right tri) in
  let d3 := signedArea point (right tri) (top tri) in
  let hasNeg := Qltb d1 0 || Qltb d2 0 || Qltb d3 0 in
  let hasPos := Qltb 0 d1 || Qltb 0 d2 || Qltb 0 d3 in
  negb (hasNeg && hasPos).

Definition projectPointOntoSegment (p a b : Point2D) : option Point2D :=
  let dx := px b - px a in
  let dy := py b - py a in
  let lengthSq := dx * dx + dy * dy in
  if Qltb lengthSq (1 # 1000) then Some a else
  let* t := qdiv ((px p - px a) * dx + (py p - py a) * dy) lengthSq in
  let t := std_max 0 (std_min 1 t) in
  Some (mkPoint (px a + t * dx) (py a + t * dy)).

(** The [distSq] lambda of [clampToTriangle]. *)
Definition distSq (a b : Point2D) : Q :=
  let dx := px b - px a in
  let dy := py b - py a in
  dx * dx + dy * dy.

Definition clampToTriangle (point : Point2D) : option Point2D :=
  if isInside point then Some point else
  let* proj1 := projectPointOntoSegment point (top tri) (left tri) in
  let* proj2 := projectPointOntoSegment point (left tri) (right tri) in
  let* proj3 := projectPointOntoSegment point (right tri) (top tri) in
  let d1 := distSq point proj1 in
  let d2 := distSq point proj2 in
  let d3 := distSq point proj3 in
  if Qle_bool d1 d2 && Qle_bool d1 d3 then Some proj1 else
  if Qle_bool d2 d3 then Some proj2 else
  Some proj3.

Definition cartesianToBary (point : Point2D) : option BarycentricCoord :=
  let* clamped := clampToTriangle point in
  let totalArea := signedArea (top tri) (left tri) (right tri) in
  let totalArea := if Qltb (Qabs totalArea) (1 # 1000) then 1 else totalArea in
  let* perf := qdiv (signedArea clamped (left tri) (right tri)) totalArea in
  let* vel := qdiv (signedArea clamped (right tri) (top tri)) totalArea in
  let* adapt := qdiv (signedArea clamped (top tri) (left tri)) totalArea in
  Some (mkBary (std_max 0 (std_min 1 perf))
               (std_max 0 (std_min 1 vel))
               (std_max 0 (std_min 1 adapt))).

Definition getTop : Point2D := top tri.
Definition getLeft : Point2D := left tri.
Definition getRight : Point2D := right tri.

End Geometry.

(** ** Global state and exported functions *)

(** [static Triangle* triangle], [static BarycentricCoord dotPosition],
    [static bool isDragging]. *)
Record State := mkState {
  triangle : option Triangle;
  dotPosition : BarycentricCoord;
  isDragging : bool
}.

Definition CANVAS_WIDTH : Z := 700.
Definition CANVAS_HEIGHT : Z := 550.

(** Initial values of the globals: no triangle, marker (0.33, 0.33, 0.34),
    not dragging. *)
Definition initial_state : State :=
  mkState None (mkBary (33 # 100) (33 # 100) (34 # 100)) false.

Definition init (s : State) : State :=
  mkState (Some (Triangle_make CANVAS_WIDTH CANVAS_HEIGHT))
          (dotPosition s) (isDragging s).

Definition cleanup (s : State) : State :=
  mkState None (dotPosition s) (isDragging s).

(** [distance = std::sqrt(dx*dx + dy*dy)] and the test [distance < 15]:
    the square root is monotone on non-negative numbers, so the test is
    computed on the squared distance, [dx*dx + dy*dy < 15*15]. *)
Definition handleMouseDown (s : State) (mouseX mouseY : Q) : option State :=
  match triangle s with
  | None => Some s
  | Some t =>
      let mousePos := mkPoint mouseX mouseY in
      let dotPos := baryToCartesian t (dotPosition s) in
      let dx := px mousePos - px dotPos in
      let dy := py mousePos - py dotPos in
      if Qltb (dx * dx + dy * dy) (15 * 15) then
        Some (mkState (triangle s) (dotPosition s) true)
      else if isInside t mousePos then
        let* bc := cartesianToBary t mousePos in
        Some (mkState (triangle s) bc true)
      else Some s
  end.

Definition handleMouseMove (s : State) (mouseX mouseY : Q) : option State :=
  match triangle s with
  | Some t =>
      if isDragging s then
        let* bc := cartesianToBary t (mkPoint mouseX mouseY) in
        Some (mkState (triangle s) bc (isDragging s))
      else Some s
  | None => Some s
  end.

Definition handleMouseUp (s : State) : State :=
  mkState (triangle s) (dotPosition s) false.

Definition getDotX (s : State) : Q :=
  match triangle s with
  | None => 0
  | Some t => px (baryToCartesian t (dotPosition s))
  end.

Definition getDotY (s : State) : Q :=
  match triangle s with
  | None => 0
  | Some t => py (baryToCartesian t (dotPosition s))
  end.

Definition getTriangleTopX (s : State) : Q :=
  match triangle s with Some t => px (getTop t) | None => 0 end.
Definition getTriangleTopY (s : State) : Q :=
  match triangle s with Some t => py (getTop t) | None => 0 end.
Definition getTriangleLeftX (s : State) : Q :=
  match triangle s with Some t => px (getLeft t) | None => 0 end.
Definition getTriangleLeftY (s : State) : Q :=
  match triangle s with Some t => py (getLeft t) | None => 0 end.
Definition getTriangleRightX (s : State) : Q :=
  match triangle s with Some t => px (getRight t) | None => 0 end.
Definition getTriangleRightY (s : State) : Q :=
  match triangle s with Some t => py (getRight t) | None => 0 end.

Definition getPerformance (s : State) : Q := performance (dotPosition s).
Definition getVelocity (s : State) : Q := velocity (dotPosition s).
Definition getAdaptability (s : State) : Q := adaptability (dotPosition s).

(** The calls of the exported interface that change the state. *)
Inductive Call :=
  | CInit
  | CCleanup
  | CMouseDown (x y : Q)
  | CMouseMove (x y : Q)
  | CMouseUp.

Definition step (s : State) (c : Call) : option State :=
  match c with
  | CInit => Some (init s)
  | CCleanup => Some (cleanup s)
  | CMouseDown x y => handleMouseDown s x y
  | CMouseMove x y => handleMouseMove s x y
  | CMouseUp => Some (handleMouseUp s)
  end.

Fixpoint run (s : State) (cs : list Call) : option State :=
  match cs with
  | [] => Some s
  | c :: cs' => let* s' := step s c in run s' cs'
  end.

Definition in01 (q : Q) : Prop := 0 <= q /\ q <= 1.

Definition bary_in01 (bc : BarycentricCoord) : Prop :=
  in01 (performance bc) /\ in01 (velocity bc) /\ in01 (adaptability bc).

(** A point on the segment [a b] at parameter [s]. *)
Definition on_segment (a b p : Point2D) : Prop :=
  exists s, in01 s /\
    px p == px a + s * (px b - px a) /\ py p == py a + s * (py b - py a).

Definition on_edge (t : Triangle) (p : Point2D) : Prop :=
  on_segment (top t) (left t) p \/ on_segment (left t) (right t) p
  \/ on_segment (right t) (top t) p.

Definition fixed_triangle : Triangle := Triangle_make CANVAS_WIDTH CANVAS_HEIGHT.

(** ** The geometry in IEEE binary64 arithmetic

    The same functions with the C++ [double] operations as they run: every
    [+], [-], [*], [/] rounds to the nearest binary64 value (the wasm
    target has no fused multiply-add), and a division by zero yields an
    infinity or a NaN instead of failing. *)
Module Binary64.

Local Open Scope float_scope.

Record PointF := mkPointF { fx : float; fy : float }.

Record TriangleF := mkTriangleF { ftop : PointF; fleft : PointF; fright : PointF }.

(** Conversion of an [int] to [double] (exact below 2^53). *)
Fixpoint pos_to_double (p : positive) : float :=
  match p with
  | xH => 1
  | xO q => 2 * pos_to_double q
  | xI q => 2 * pos_to_double q + 1
  end.

Definition Z_to_double (z : Z) : float :=
  match z with
  | Z0 => 0
  | Zpos p => pos_to_double p
  | Zneg p => - pos_to_double p
  end.

Definition Triangle_make (canvasWidth canvasHeight : Z) : TriangleF :=
  let padding := 80%Z in
  {| ftop := mkPointF (Z_to_double canvasWidth / 2.0) (Z_to_double padding);
     fleft := mkPointF (Z_to_double padding) (Z_to_double (canvasHeight - padding));
     fright := mkPointF (Z_to_double (canvasWidth - padding))
                        (Z_to_double (canvasHeight - padding)) |}.

Definition std_min (a b : float) : float := if b <? a then b else a.
Definition std_max (a b : float) : float := if a <? b then b else a.

Section GeometryF.

Variable tri : TriangleF.

Definition signedArea (p1 p2 p3 : PointF) : float :=
  (fx p1 - fx p3) * (fy p2 - fy p3) - (fx p2 - fx p3) * (fy p1 - fy p3).

Definition isInside (point : PointF) : bool :=
  let d1 := signedArea point (ftop tri) (fleft tri) in
  let d2 := signedArea point (fleft tri) (fright tri) in
  let d3 := signedArea point (fright tri) (ftop tri) in
  let hasNeg := (d1 <? 0) || (d2 <? 0) || (d3 <? 0) in
  let hasPos := (0 <? d1) || (0 <? d2) || (0 <? d3) in
  negb (hasNeg && hasPos).

Definition projectPointOntoSegment (p a b : PointF) : PointF :=
  let dx := fx b - fx a in
  let dy := fy b - fy a in
  let lengthSq := dx * dx + dy * dy in
  if lengthSq <? 0.001 then a else
  let t := ((fx p - fx a) * dx + (fy p - fy a) * dy) / lengthSq in
  let t := std_max 0 (std_min 1 t) in
  mkPointF (fx a + t * dx) (fy a + t * dy).

Definition distSq (a b : PointF) : float :=
  let dx := fx b - fx a in
  let dy := fy b - fy a in
  dx * dx + dy * dy.

Definition clampToTriangle (point : PointF) : PointF :=
  if isInside point then point else
  let proj1 := projectPointOntoSegment point (ftop tri) (fleft tri) in
  let proj2 := projectPointOntoSegment point (fleft tri) (fright tri) in
  let proj3 := projectPointOntoSegment point (fright tri) (ftop tri) in
  let d1 := distSq point proj1 in
  let d2 := distSq point proj2 in
  let d3 := distSq point proj3 in
  if (d1 <=? d2) && (d1 <=? d3) then proj1 else
  if d2 <=? d3 then proj2 else
  proj3.

End GeometryF.

Definition fixed_triangle : TriangleF := Triangle_make CANVAS_WIDTH CANVAS_HEIGHT.

End Binary64.

(** ** Basic facts *)

Lemma Qltb_true (a b : Q) : Qltb a b = true <-> a < b.
Proof.
  unfold Qltb. rewrite negb_true_iff.
  destruct (Qle_bool b a) eqn:E.
  - apply Qle_bool_iff in E. split; [discriminate | intro H; lra].
  - split; [intros _ | reflexivity].
    apply Qnot_le_lt. intro H. apply Qle_bool_iff in H. congruence.
Qed.

Lemma Qltb_false (a b : Q) : Qltb a b = false <-> b <= a.
Proof.
  unfold Qltb. rewrite negb_false_iff. apply Qle_bool_iff.
Qed.

Lemma Qle_bool_false (a b : Q) : Qle_bool a b = false <-> b < a.
Proof.
  destruct (Qle_bool a b) eqn:E.
  - apply Qle_bool_iff in E. split; [discriminate | intro H; lra].
  - split; [intros _ | reflexivity].
    apply Qnot_le_lt. intro H. apply Qle_bool_iff in H. congruence.
Qed.

Lemma qdiv_nonzero (a b : Q) : ~ b == 0 -> qdiv a b = Some (a / b).
Proof.
  intro H. unfold qdiv.
  destruct (Qeq_bool b 0) eqn:E; [|reflexivity].
  apply Qeq_bool_eq in E. contradiction.
Qed.

(** The clamp [std::max(0.0, std::min(1.0, q))] lands in [0, 1]. *)
Lemma clamp01_in01 (q : Q) : in01 (std_max 0 (std_min 1 q)).
Proof.
  unfold in01, std_max, std_min.
  destruct (Qltb q 1) eqn:E1.
  - apply Qltb_true in E1.
    destruct (Qltb 0 q) eqn:E2.
    + apply Qltb_true in E2. lra.
    + lra.
  - apply Qltb_false in E1.
    destruct (Qltb 0 1) eqn:E2; lra.
Qed.

(** ... and it leaves a value of [0, 1] unchanged. *)
Lemma clamp01_id (q : Q) : in01 q -> std_max 0 (std_min 1 q) == q.
Proof.
  unfold in01, std_max, std_min. intros [H0 H1].
  destruct (Qltb q 1) eqn:E1.
  - destruct (Qltb 0 q) eqn:E2.
    + reflexivity.
    + apply Qltb_false in E2. lra.
  - apply Qltb_false in E1.
    destruct (Qltb 0 1) eqn:E2; [lra|].
    apply Qltb_false in E2. lra.
Qed.

(** The projection never divides by zero: a segment shorter than the
    epsilon returns its start. *)
Lemma projectPointOntoSegment_some (p a b : Point2D) :
  exists s, in01 s /\
    (projectPointOntoSegment p a b =
       Some (mkPoint (px a + s * (px b - px a)) (py a + s * (py b - py a)))
     \/ (Qltb ((px b - px a) * (px b - px a) + (py b - py a) * (py b - py a))
           (1 # 1000) = true /\ projectPointOntoSegment p a b = Some a)).
Proof.
  unfold projectPointOntoSegment.
  set (dx := px b - px a). set (dy := py b - py a).
  destruct (Qltb (dx * dx + dy * dy) (1 # 1000)) eqn:E.
  - exists 0. split; [unfold in01; lra|]. right. split; reflexivity.
  - apply Qltb_false in E.
    rewrite qdiv_nonzero by lra.
    eexists. split; [apply clamp01_in01|]. left. reflexivity.
Qed.

Lemma projectPointOntoSegment_on_segment (p a b : Point2D) :
  exists q, projectPointOntoSegment p a b = Some q /\ on_segment a b q.
Proof.
  destruct (projectPointOntoSegment_some p a b) as [s [Hs [E | [_ E]]]];
    rewrite E; eexists; split; try reflexivity.
  - exists s. split; [exact Hs | split; reflexivity].
  - exists 0. split; [unfold in01; lra|]. simpl. split; ring.
Qed.

(** [clampToTriangle] never fails: it returns the point itself when it is
    inside, otherwise one of the three edge projections. *)
Lemma clampToTriangle_cases (t : Triangle) (p : Point2D) :
  exists q, clampToTriangle t p = Some q /\
    ((isInside t p = true /\ q = p) \/ (isInside t p = false /\ on_edge t q)).
Proof.
  unfold clampToTriangle.
  destruct (isInside t p) eqn:Ein.
  - exists p. split; [reflexivity|]. left. split; reflexivity.
  - destruct (projectPointOntoSegment_on_segment p (top t) (left t))
      as [q1 [E1 H1]].
    destruct (projectPointOntoSegment_on_segment p (left t) (right t))
      as [q2 [E2 H2]].
    destruct (projectPointOntoSegment_on_segment p (right t) (top t))
      as [q3 [E3 H3]].
    rewrite E1, E2, E3.
    destruct (Qle_bool (distSq p q1) (distSq p q2)
              && Qle_bool (distSq p q1) (distSq p q3));
      [|destruct (Qle_bool (distSq p q2) (distSq p q3))];
      eexists; (split; [reflexivity|]); right; split; try reflexivity;
      unfold on_edge; tauto.
Qed.

Lemma Qabs_nonzero (q : Q) : (1 # 1000) <= Qabs q -> ~ q == 0.
Proof.
  intros H E. rewrite E in H. simpl in H. lra.
Qed.

(** The total area used as divisor is never zero. *)
Lemma totalArea_nonzero (A : Q) :
  ~ (if Qltb (Qabs A) (1 # 1000) then 1 else A) == 0.
Proof.
  destruct (Qltb (Qabs A) (1 # 1000)) eqn:E.
  - discriminate.
  - apply Qltb_false in E. now apply Qabs_nonzero.
Qed.

Lemma cartesianToBary_some_in01 (t : Triangle) (p : Point2D) :
  exists bc, cartesianToBary t p = Some bc /\ bary_in01 bc.
Proof.
  unfold cartesianToBary.
  destruct (clampToTriangle_cases t p) as [q [Eq _]]. rewrite Eq.
  set (A := signedArea (top t) (left t) (right t)).
  rewrite !qdiv_nonzero by apply totalArea_nonzero.
  eexists. split; [reflexivity|].
  unfold bary_in01; simpl. split; [|split]; apply clamp01_in01.
Qed.

(** A point whose three signed areas are non-negative multiples of the
    total signed area is classified inside, whatever the winding. *)
Lemma isInside_coeffs (t : Triangle) (p : Point2D) (a b c : Q) :
  0 <= a -> 0 <= b -> 0 <= c ->
  signedArea p (top t) (left t) == a * signedArea (top t) (left t) (right t) ->
  signedArea p (left t) (right t) == b * signedArea (top t) (left t) (right t) ->
  signedArea p (right t) (top t) == c * signedArea (top t) (left t) (right t) ->
  isInside t p = true.
Proof.
  intros Ha Hb Hc H1 H2 H3. unfold isInside.
  set (A := signedArea (top t) (left t) (right t)) in *.
  destruct (Qle_bool 0 A) eqn:EA.
  - apply Qle_bool_iff in EA.
    rewrite (proj2 (Qltb_false _ _)) by nra.
    rewrite (proj2 (Qltb_false (signedArea p (left t) (right t)) 0)) by nra.
    rewrite (proj2 (Qltb_false (signedArea p (right t) (top t)) 0)) by nra.
    reflexivity.
  - apply Qle_bool_false in EA.
    rewrite (proj2 (Qltb_false 0 (signedArea p (top t) (left t)))) by nra.
    rewrite (proj2 (Qltb_false 0 (signedArea p (left t) (right t)))) by nra.
    rewrite (proj2 (Qltb_false 0 (signedArea p (right t) (top t)))) by nra.
    rewrite andb_false_r. reflexivity.
Qed.

Ltac area_ring Hx Hy := unfold signedArea; rewrite Hx, Hy; ring.

Lemma isInside_top_left (t : Triangle) (p : Point2D) :
  on_segment (top t) (left t) p -> isInside t p = true.
Proof.
  intros [s [[Hs0 Hs1] [Hx Hy]]].
  apply (isInside_coeffs t p 0 (1 - s) s); try lra; area_ring Hx Hy.
Qed.

Lemma isInside_left_right (t : Triangle) (p : Point2D) :
  on_segment (left t) (right t) p -> isInside t p = true.
Proof.
  intros [s [[Hs0 Hs1] [Hx Hy]]].
  apply (isInside_coeffs t p s 0 (1 - s)); try lra; area_ring Hx Hy.
Qed.

Lemma isInside_right_top (t : Triangle) (p : Point2D) :
  on_segment (right t) (top t) p -> isInside t p = true.
Proof.
  intros [s [[Hs0 Hs1] [Hx Hy]]].
  apply (isInside_coeffs t p (1 - s) s 0); try lra; area_ring Hx Hy.
Qed.

Lemma isInside_on_edge (t : Triangle) (p : Point2D) :
  on_edge t p -> isInside t p = true.
Proof.
  intros [H | [H | H]];
    [apply isInside_top_left | apply isInside_left_right
    | apply isInside_right_top]; exact H.
Qed.

Lemma div_coeff (x a A : Q) : ~ A == 0 -> x == a * A -> x / A == a.
Proof. intros HA Hx. rewrite Hx. field. exact HA. Qed.

Lemma clamp_div_coeff (x a A : Q) :
  ~ A == 0 -> x == a * A -> in01 a -> std_max 0 (std_min 1 (x / A)) == a.
Proof.
  intros HA Hx Ha.
  assert (Hd : x / A == a) by (apply div_coeff; assumption).
  rewrite clamp01_id; [exact Hd|].
  unfold in01 in *. rewrite Hd. exact Ha.
Qed.

(** Round trip on any triangle whose total signed area is not below the
    epsilon. *)
Lemma roundtrip_general (t : Triangle) (bc : BarycentricCoord) :
  (1 # 1000) <= Qabs (signedArea (top t) (left t) (right t)) ->
  bary_in01 bc ->
  performance bc + velocity bc + adaptability bc == 1 ->
  exists bc', cartesianToBary t (baryToCartesian t bc) = Some bc' /\
    performance bc' == performance bc /\ velocity bc' == velocity bc /\
    adaptability bc' == adaptability bc.
Proof.
  intros HA [Hp [Hv Ha]] Hsum.
  assert (Hperf : performance bc == 1 - velocity bc - adaptability bc) by lra.
  assert (Hin : isInside t (baryToCartesian t bc) = true).
  { apply (isInside_coeffs t _ (adaptability bc) (performance bc) (velocity bc));
      try (unfold in01 in *; lra);
      unfold signedArea, baryToCartesian; simpl; rewrite Hperf; ring. }
  unfold cartesianToBary, clampToTriangle. rewrite Hin.
  set (A := signedArea (top t) (left t) (right t)) in *.
  destruct (Qltb (Qabs A) (1 # 1000)) eqn:E.
  { apply Qltb_true in E. lra. }
  assert (HA0 : ~ A == 0) by (apply Qabs_nonzero; exact HA).
  rewrite !qdiv_nonzero by exact HA0.
  eexists. split; [reflexivity|]. simpl.
  split; [|split]; apply clamp_div_coeff; try assumption;
    unfold A, signedArea, baryToCartesian; simpl; rewrite Hperf; ring.
Qed.

Lemma fixed_triangle_area :
  (1 # 1000) <= Qabs (signedArea (top fixed_triangle) (left fixed_triangle)
                                 (right fixed_triangle)).
Proof. vm_compute. discriminate. Qed.

(** ** Claims *)

(** C1: on the 700x550 triangle with padding 80, for every barycentric
    triple whose components lie in [0, 1] and sum to 1,
    [cartesianToBary (baryToCartesian bc)] returns [bc] (exactly, in the
    rational model). *)
Theorem cartesianToBary_baryToCartesian (bc : BarycentricCoord) :
  bary_in01 bc ->
  performance bc + velocity bc + adaptability bc == 1 ->
  exists bc',
    cartesianToBary fixed_triangle (baryToCartesian fixed_triangle bc) = Some bc' /\
    performance bc' == performance bc /\ velocity bc' == velocity bc /\
    adaptability bc' == adaptability bc.
Proof.
  intros H Hsum. apply roundtrip_general; [apply fixed_triangle_area | exact H | exact Hsum].
Qed.

Lemma cartesianToBary_baryToCartesian_witness :
  bary_in01 (mkBary (1 # 2) (1 # 4) (1 # 4)) /\
  exists bc',
    cartesianToBary fixed_triangle
      (baryToCartesian fixed_triangle (mkBary (1 # 2) (1 # 4) (1 # 4))) = Some bc' /\
    performance bc' == 1 # 2 /\ velocity bc' == 1 # 4 /\ adaptability bc' == 1 # 4.
Proof.
  assert (H : bary_in01 (mkBary (1 # 2) (1 # 4) (1 # 4)))
    by (unfold bary_in01, in01; simpl; lra).
  split; [exact H|].
  apply (cartesianToBary_baryToCartesian (mkBary (1 # 2) (1 # 4) (1 # 4)) H).
  vm_compute. reflexivity.
Defined.

(** C2: a point inside is returned unchanged; a point outside goes to the
    edge projection at minimum squared distance, ties going to the earlier
    edge in the order top-left, left-right, right-top. *)
Theorem clampToTriangle_nearest (t : Triangle) (P : Point2D) :
  if isInside t P then clampToTriangle t P = Some P
  else exists p1 p2 p3,
    projectPointOntoSegment P (top t) (left t) = Some p1 /\
    projectPointOntoSegment P (left t) (right t) = Some p2 /\
    projectPointOntoSegment P (right t) (top t) = Some p3 /\
    ((clampToTriangle t P = Some p1 /\
        distSq P p1 <= distSq P p2 /\ distSq P p1 <= distSq P p3)
     \/ (clampToTriangle t P = Some p2 /\
        distSq P p2 < distSq P p1 /\ distSq P p2 <= distSq P p3)
     \/ (clampToTriangle t P = Some p3 /\
        distSq P p3 < distSq P p1 /\ distSq P p3 < distSq P p2)).
Proof.
  unfold clampToTriangle.
  destruct (isInside t P) eqn:Ein; [reflexivity|].
  destruct (projectPointOntoSegment_on_segment P (top t) (left t)) as [q1 [E1 _]].
  destruct (projectPointOntoSegment_on_segment P (left t) (right t)) as [q2 [E2 _]].
  destruct (projectPointOntoSegment_on_segment P (right t) (top t)) as [q3 [E3 _]].
  exists q1, q2, q3. rewrite E1, E2, E3.
  split; [reflexivity|]. split; [reflexivity|]. split; [reflexivity|].
  destruct (Qle_bool (distSq P q1) (distSq P q2)) eqn:E12;
  destruct (Qle_bool (distSq P q1) (distSq P q3)) eqn:E13;
  destruct (Qle_bool (distSq P q2) (distSq P q3)) eqn:E23; simpl;
  repeat match goal with
  | H : Qle_bool _ _ = true |- _ => apply Qle_bool_iff in H
  | H : Qle_bool _ _ = false |- _ => apply Qle_bool_false in H
  end;
  first [ left; repeat split; lra
        | right; left; repeat split; lra
        | right; right; repeat split; lra ].
Qed.

(** C4: for every triangle, degenerate ones included, and every point,
    [cartesianToBary] performs no division by zero (the checked divisions
    all succeed) and each component of its result lies in [0, 1]. *)
Theorem cartesianToBary_no_div_zero_in01 (t : Triangle) (p : Point2D) :
  exists bc, cartesianToBary t p = Some bc /\ bary_in01 bc.
Proof. apply cartesianToBary_some_in01. Qed.

(** C6: every point of the three edges, the vertices in particular, is
    classified inside, for every triangle whatever its winding; a point is
    classified outside exactly when the three signed areas contain a
    strictly negative and a strictly positive value. *)
Theorem isInside_boundary (t : Triangle) :
  (forall p, on_edge t p -> isInside t p = true) /\
  isInside t (top t) = true /\ isInside t (left t) = true /\
  isInside t (right t) = true /\
  (forall p,
     let d1 := signedArea p (top t) (left t) in
     let d2 := signedArea p (left t) (right t) in
     let d3 := signedArea p (right t) (top t) in
     isInside t p = false <->
     ((d1 < 0 \/ d2 < 0 \/ d3 < 0) /\ (0 < d1 \/ 0 < d2 \/ 0 < d3))).
Proof.
  assert (Hv : forall a b, on_segment a b a).
  { intros a b. exists 0. split; [unfold in01; lra|]. split; ring. }
  split; [exact (isInside_on_edge t)|].
  split; [apply isInside_on_edge; left; apply Hv|].
  split; [apply isInside_on_edge; right; left; apply Hv|].
  split; [apply isInside_on_edge; right; right; apply Hv|].
  intros p d1 d2 d3. unfold isInside. fold d1 d2 d3.
  rewrite negb_false_iff, andb_true_iff, !orb_true_iff, !Qltb_true.
  rewrite <- !or_assoc. reflexivity.
Qed.

Lemma isInside_boundary_witness :
  isInside fixed_triangle (mkPoint 215 275) = true.
Proof.
  apply (proj1 (isInside_boundary fixed_triangle)).
  left. exists (1 # 2). split; [unfold in01; lra|].
  vm_compute. split; reflexivity.
Defined.

Lemma Qsq_nonneg (a : Q) : 0 <= a * a.
Proof.
  destruct (Qle_bool 0 a) eqn:E.
  - apply Qle_bool_iff in E. apply Qmult_le_0_compat; exact E.
  - apply Qle_bool_false in E.
    setoid_replace (a * a) with ((- a) * (- a)) by ring.
    apply Qmult_le_0_compat; lra.
Qed.

(** The grab test of [handleMouseDown]: for a non-negative squared
    distance [q], [std::sqrt(q) < 15] iff [q < 15*15]. *)
Lemma sqrt_lt_15 (q : Q) :
  0 <= q -> (R_sqrt.sqrt (Q2R q) < 15)%R <-> q < 15 * 15.
Proof.
  intro Hq.
  assert (H15 : Q2R 15 = 15%R) by (unfold Q2R; cbn [Qnum Qden]; rewrite Rinv_1; ring).
  assert (H0 : Q2R 0 = 0%R) by (unfold Q2R; cbn [Qnum Qden]; ring).
  assert (Hsq : R_sqrt.sqrt (Q2R (15 * 15)) = 15%R).
  { rewrite Q2R_mult, H15. apply R_sqrt.sqrt_square. Lra.lra. }
  split.
  - intro H. apply Qnot_le_lt. intro Hle.
    apply Qle_Rle, R_sqrt.sqrt_le_1_alt in Hle. rewrite Hsq in Hle. Lra.lra.
  - intro H. rewrite <- Hsq. apply R_sqrt.sqrt_lt_1_alt.
    split; [apply (Qle_Rle 0 q) in Hq; rewrite H0 in Hq; exact Hq|].
    apply Qlt_Rlt. exact H.
Qed.

(** C5: [handleMouseDown] grabs the marker when the pointer is within 15
    pixels of it, otherwise moves the marker to a pointer inside the
    triangle and starts dragging, otherwise changes nothing; without a
    geometry instance it changes nothing. *)
Theorem handleMouseDown_cases (s : State) (x y : Q) :
  match triangle s with
  | None => handleMouseDown s x y = Some s
  | Some t =>
      let dotPos := baryToCartesian t (dotPosition s) in
      let dist := R_sqrt.sqrt (Q2R ((x - px dotPos) * (x - px dotPos)
                                    + (y - py dotPos) * (y - py dotPos))) in
      ((dist < 15)%R ->
         handleMouseDown s x y = Some (mkState (triangle s) (dotPosition s) true))
      /\ (~ (dist < 15)%R -> isInside t (mkPoint x y) = true ->
          exists bc, cartesianToBary t (mkPoint x y) = Some bc /\
            handleMouseDown s x y = Some (mkState (triangle s) bc true))
      /\ (~ (dist < 15)%R -> isInside t (mkPoint x y) = false ->
          handleMouseDown s x y = Some s)
  end.
Proof.
  unfold handleMouseDown.
  destruct (triangle s) as [t|] eqn:Et; [|reflexivity].
  cbn zeta. set (dotPos := baryToCartesian t (dotPosition s)).
  cbn [px py].
  set (q := (x - px dotPos) * (x - px dotPos) + (y - py dotPos) * (y - py dotPos)).
  assert (Hq : 0 <= q).
  { unfold q. pose proof (Qsq_nonneg (x - px dotPos)).
    pose proof (Qsq_nonneg (y - py dotPos)). lra. }
  destruct (Qltb q (15 * 15)) eqn:Eq.
  - apply Qltb_true in Eq.
    split; [intros _; reflexivity|].
    split; intros Hd; exfalso; apply Hd, (sqrt_lt_15 q Hq); exact Eq.
  - apply Qltb_false in Eq.
    split; [intros Hd; apply (sqrt_lt_15 q Hq) in Hd; lra|].
    split; intros _ Hin; rewrite Hin; [|reflexivity].
    destruct (cartesianToBary_some_in01 t (mkPoint x y)) as [bc [E _]].
    rewrite E. exists bc. split; reflexivity.
Qed.

Lemma handleMouseDown_cases_witness :
  handleMouseDown (init initial_state) 350 80 =
    Some (mkState (Some fixed_triangle) (mkBary 1 0 0) true).
Proof.
  destruct (handleMouseDown_cases (init initial_state) 350 80) as [_ [H _]].
  destruct H as [bc [Ebc E]].
  - intro Hd. apply (sqrt_lt_15 _) in Hd; [vm_compute in Hd; discriminate|].
    vm_compute. discriminate.
  - reflexivity.
  - rewrite E. vm_compute in Ebc. injection Ebc as <-. reflexivity.
Defined.

(** Every call of the interface succeeds and keeps the marker's components
    in [0, 1]. *)
Lemma step_in01 (s : State) (c : Call) :
  bary_in01 (dotPosition s) ->
  exists s', step s c = Some s' /\ bary_in01 (dotPosition s').
Proof.
  intro H.
  destruct c as [| | x y | x y |]; simpl.
  - eexists. split; [reflexivity | exact H].
  - eexists. split; [reflexivity | exact H].
  - unfold handleMouseDown.
    destruct (triangle s) as [t|]; [|eexists; split; [reflexivity | exact H]].
    destruct (Qltb _ _); [eexists; split; [reflexivity | exact H]|].
    destruct (isInside t _); [|eexists; split; [reflexivity | exact H]].
    destruct (cartesianToBary_some_in01 t (mkPoint x y)) as [bc [E Hbc]].
    rewrite E. eexists. split; [reflexivity | exact Hbc].
  - unfold handleMouseMove.
    destruct (triangle s) as [t|]; [|eexists; split; [reflexivity | exact H]].
    destruct (isDragging s); [|eexists; split; [reflexivity | exact H]].
    destruct (cartesianToBary_some_in01 t (mkPoint x y)) as [bc [E Hbc]].
    rewrite E. eexists. split; [reflexivity | exact Hbc].
  - eexists. split; [reflexivity | exact H].
Qed.

Lemma run_in01 (cs : list Call) (s : State) :
  bary_in01 (dotPosition s) ->
  exists s', run s cs = Some s' /\ bary_in01 (dotPosition s').
Proof.
  revert s. induction cs as [|c cs IH]; intros s H; simpl.
  - exists s. split; [reflexivity | exact H].
  - destruct (step_in01 s c H) as [s1 [E H1]]. rewrite E. apply IH. exact H1.
Qed.

(** C7: after every sequence of calls from the initial state (marker
    (0.33, 0.33, 0.34)), each stored barycentric component lies in [0, 1];
    every call succeeds. *)
Theorem marker_in01_invariant (cs : list Call) :
  exists s, run initial_state cs = Some s /\ bary_in01 (dotPosition s).
Proof.
  apply run_in01. unfold bary_in01, in01; simpl. lra.
Qed.

(** C8 (as stated): without a geometry instance, every getter of the
    interface, the weight getters included, returns 0.  This fails before
    [init]: [getPerformance] returns the stored 0.33. *)
Lemma uninitialized_getters_not_all_zero :
  ~ (forall s, triangle s = None ->
       getDotX s == 0 /\ getDotY s == 0 /\
       getTriangleTopX s == 0 /\ getTriangleTopY s == 0 /\
       getTriangleLeftX s == 0 /\ getTriangleLeftY s == 0 /\
       getTriangleRightX s == 0 /\ getTriangleRightY s == 0 /\
       getPerformance s == 0 /\ getVelocity s == 0 /\ getAdaptability s == 0).
Proof.
  intro H. destruct (H initial_state eq_refl) as [_ [_ [_ [_ [_ [_ [_ [_ [Hp _]]]]]]]]].
  vm_compute in Hp. discriminate.
Qed.

(** C8 (amended): without a geometry instance, [getDotX], [getDotY] and the
    six vertex getters return 0, while the three weight getters return the
    stored barycentric components of the marker. *)
Theorem uninitialized_getters (s : State) :
  triangle s = None ->
  getDotX s = 0 /\ getDotY s = 0 /\
  getTriangleTopX s = 0 /\ getTriangleTopY s = 0 /\
  getTriangleLeftX s = 0 /\ getTriangleLeftY s = 0 /\
  getTriangleRightX s = 0 /\ getTriangleRightY s = 0 /\
  getPerformance s = performance (dotPosition s) /\
  getVelocity s = velocity (dotPosition s) /\
  getAdaptability s = adaptability (dotPosition s).
Proof.
  intro H. unfold getDotX, getDotY, getTriangleTopX, getTriangleTopY,
    getTriangleLeftX, getTriangleLeftY, getTriangleRightX, getTriangleRightY.
  rewrite H. repeat split.
Qed.

Lemma uninitialized_getters_witness :
  getDotX initial_state = 0 /\ getDotY initial_state = 0 /\
  getTriangleTopX initial_state = 0 /\ getTriangleTopY initial_state = 0 /\
  getTriangleLeftX initial_state = 0 /\ getTriangleLeftY initial_state = 0 /\
  getTriangleRightX initial_state = 0 /\ getTriangleRightY initial_state = 0 /\
  getPerformance initial_state = 33 # 100 /\
  getVelocity initial_state = 33 # 100 /\
  getAdaptability initial_state = 34 # 100.
Proof.
  exact (uninitialized_getters initial_state eq_refl).
Defined.

(** C9: with the fixed constants the vertices are (350, 80), (80, 470),
    (620, 470), and [init]; [pointerDown(350, 80)]; [pointerUp] from the
    initial state puts the marker at (350, 80) with weights (1, 0, 0). *)
Theorem end_to_end_top_vertex :
  px (top fixed_triangle) == 350 /\ py (top fixed_triangle) == 80 /\
  px (left fixed_triangle) == 80 /\ py (left fixed_triangle) == 470 /\
  px (right fixed_triangle) == 620 /\ py (right fixed_triangle) == 470 /\
  exists s, run initial_state [CInit; CMouseDown 350 80; CMouseUp] = Some s /\
    getDotX s == 350 /\ getDotY s == 80 /\
    getPerformance s == 1 /\ getVelocity s == 0 /\ getAdaptability s == 0.
Proof.
  vm_compute. repeat split; try reflexivity.
  eexists. split; [reflexivity|]. vm_compute. repeat split; reflexivity.
Qed.

(** C10: [handleMouseUp] only clears the dragging flag: the geometry
    instance and the marker are unchanged, in every state. *)
Theorem handleMouseUp_frame (s : State) :
  triangle (handleMouseUp s) = triangle s /\
  dotPosition (handleMouseUp s) = dotPosition s /\
  isDragging (handleMouseUp s) = false.
Proof. repeat split. Qed.

(** ** Further properties of the interface *)

(** Extra: without a geometry instance, any sequence of calls that does
    not call [init] keeps the geometry absent and never moves the marker. *)
Theorem no_geometry_marker_frozen (s : State) (cs : list Call) :
  triangle s = None ->
  Forall (fun c => c <> CInit) cs ->
  exists s', run s cs = Some s' /\ triangle s' = None /\
    dotPosition s' = dotPosition s.
Proof.
  intros Ht Hcs. revert s Ht.
  induction Hcs as [|c cs Hc Hcs IH]; intros s Ht; simpl.
  - exists s. split; [reflexivity|]. split; [exact Ht | reflexivity].
  - assert (E : exists s1, step s c = Some s1 /\ triangle s1 = None /\
                           dotPosition s1 = dotPosition s).
    { destruct c as [| | x y | x y |]; simpl.
      - contradiction.
      - eexists. split; [reflexivity|]. split; reflexivity.
      - unfold handleMouseDown. rewrite Ht.
        eexists. split; [reflexivity|]. split; [exact Ht | reflexivity].
      - unfold handleMouseMove. rewrite Ht.
        eexists. split; [reflexivity|]. split; [exact Ht | reflexivity].
      - eexists. split; [reflexivity|]. split; [exact Ht | reflexivity]. }
    destruct E as [s1 [E [Ht1 Hd1]]]. rewrite E.
    destruct (IH s1 Ht1) as [s' [E' [Ht' Hd']]].
    exists s'. split; [exact E'|]. split; [exact Ht'|]. congruence.
Qed.

Lemma no_geometry_marker_frozen_witness :
  exists s', run (cleanup (init initial_state))
               [CMouseDown 300 400; CMouseMove 350 80; CMouseUp; CCleanup] = Some s' /\
    triangle s' = None /\ dotPosition s' = dotPosition initial_state.
Proof.
  apply (no_geometry_marker_frozen (cleanup (init initial_state))); [reflexivity|].
  repeat constructor; discriminate.
Defined.

(** Extra: the pointer handlers never change the geometry instance, and
    [handleMouseMove] never changes the dragging flag. *)
Theorem pointer_handlers_keep_geometry (s : State) (x y : Q) :
  (forall s', handleMouseDown s x y = Some s' -> triangle s' = triangle s) /\
  (forall s', handleMouseMove s x y = Some s' ->
     triangle s' = triangle s /\ isDragging s' = isDragging s).
Proof.
  split; intros s' E.
  - unfold handleMouseDown in E.
    destruct (triangle s) as [t|] eqn:Ht; [|injection E as <-; exact Ht].
    destruct (Qltb _ _); [injection E as <-; reflexivity|].
    destruct (isInside t _); [|injection E as <-; exact Ht].
    destruct (cartesianToBary t _); [injection E as <-; reflexivity | discriminate].
  - unfold handleMouseMove in E.
    destruct (triangle s) as [t|] eqn:Ht; [|injection E as <-; split; [exact Ht | reflexivity]].
    destruct (isDragging s) eqn:Hd; [|injection E as <-; split; [exact Ht | exact Hd]].
    destruct (cartesianToBary t _); [injection E as <-; split; reflexivity | discriminate].
Qed.

(** ** The clamp in binary64 arithmetic *)

(** C3 (as stated): for a point outside the triangle, [clampToTriangle]
    returns a point of an edge that [isInside] accepts.  In double
    arithmetic this fails: on the 700x550 triangle, (0, 60) is outside and
    is clamped to (245.95999999999998, 230.28), a rounded projection onto
    the right-top edge that [isInside] classifies outside. *)
Lemma clampToTriangle_binary64_outside :
  Binary64.isInside Binary64.fixed_triangle (Binary64.mkPointF 0%float 60%float) = false /\
  Binary64.clampToTriangle Binary64.fixed_triangle (Binary64.mkPointF 0%float 60%float)
    = Binary64.mkPointF 245.95999999999998%float 230.28%float /\
  Binary64.isInside Binary64.fixed_triangle
    (Binary64.clampToTriangle Binary64.fixed_triangle
       (Binary64.mkPointF 0%float 60%float)) = false.
Proof. vm_compute. repeat split. Qed.

(** C3 (amended): for a point outside the triangle, [clampToTriangle]
    returns the [projectPointOntoSegment] projection of the point onto one
    of the three edges top-left, left-right, right-top, here with the
    binary64 operations of the source. *)
Theorem clampToTriangle_outside_projection (t : Binary64.TriangleF) (P : Binary64.PointF) :
  Binary64.isInside t P = false ->
  Binary64.clampToTriangle t P
    = Binary64.projectPointOntoSegment P (Binary64.ftop t) (Binary64.fleft t) \/
  Binary64.clampToTriangle t P
    = Binary64.projectPointOntoSegment P (Binary64.fleft t) (Binary64.fright t) \/
  Binary64.clampToTriangle t P
    = Binary64.projectPointOntoSegment P (Binary64.fright t) (Binary64.ftop t).
Proof.
  intro Hout. unfold Binary64.clampToTriangle. rewrite Hout.
  destruct (_ && _); [left; reflexivity|].
  destruct (PrimFloat.leb _ _); [right; left; reflexivity | right; right; reflexivity].
Qed.

Lemma clampToTriangle_outside_projection_witness :
  Binary64.isInside Binary64.fixed_triangle (Binary64.mkPointF 0%float 60%float) = false /\
  (Binary64.clampToTriangle Binary64.fixed_triangle (Binary64.mkPointF 0%float 60%float)
     = Binary64.projectPointOntoSegment (Binary64.mkPointF 0%float 60%float)
         (Binary64.ftop Binary64.fixed_triangle) (Binary64.fleft Binary64.fixed_triangle) \/
   Binary64.clampToTriangle Binary64.fixed_triangle (Binary64.mkPointF 0%float 60%float)
     = Binary64.projectPointOntoSegment (Binary64.mkPointF 0%float 60%float)
         (Binary64.fleft Binary64.fixed_triangle) (Binary64.fright Binary64.fixed_triangle) \/
   Binary64.clampToTriangle Binary64.fixed_triangle (Binary64.mkPointF 0%float 60%float)
     = Binary64.projectPointOntoSegment (Binary64.mkPointF 0%float 60%float)
         (Binary64.fright Binary64.fixed_triangle) (Binary64.ftop Binary64.fixed_triangle)).
Proof.
  assert (H : Binary64.isInside Binary64.fixed_triangle
                (Binary64.mkPointF 0%float 60%float) = false) by (vm_compute; reflexivity).
  split; [exact H|].
  exact (clampToTriangle_outside_projection Binary64.fixed_triangle _ H).
Defined.
